(** * The Auto-GPT Notion plugin adapter ([src/notion/__init__.py])

    A shallow embedding of the module's top-level code and of the class
    [AutoGPTNotion], in a state-and-exception monad over an explicit
    world: the process environment, the file system, the heap of plugin
    objects, the state owned by the collaborators (host prompt objects,
    the Notion client library, the sibling module [.notion]) and a log of
    every call that leaves the adapter. *)

From Stdlib Require Import ZArith SpecFloat.
From stdpp Require Import base option list strings gmap.

Open Scope string_scope.
Open Scope list_scope.
Set Warnings "-register-all".

(** ** Python values *)

(** Object identity. *)
Definition loc := positive.

(** The values that cross the adapter's methods.  Python is dynamically
    typed, so every method argument is a [Value]; [VObj] is a reference
    to an object (a prompt generator, a client, a function object, a
    plugin instance), compared by identity. *)
Inductive Value : Type :=
| VNone
| VBool (b : bool)
| VInt (n : Z)
| VFloat (x : spec_float)
| VStr (s : string)
| VList (xs : list Value)
| VDict (kvs : list (Value * Value))
| VObj (l : loc).
Arguments VObj l%_positive.

(** An object's attribute dictionary ([__dict__]). *)
Abbreviation Object := (gmap string Value).

(** Exceptions: the class name and the constructor arguments. *)
Inductive Exn : Type :=
| Exc (cls : string) (args : list Value).

(** [open] on a path that does not exist. *)
Definition FileNotFoundError (path : string) : Exn :=
  Exc "FileNotFoundError"
      [VInt 2; VStr "No such file or directory"; VStr path].

(** [getattr] on an attribute that is not set. *)
Definition AttributeError (attr : string) : Exn :=
  Exc "AttributeError" [VStr attr].

(** How a call ends. *)
Inductive Outcome (A : Type) : Type :=
| Returned (a : A)
| Raised (e : Exn).
Arguments Returned {A} a.
Arguments Raised {A} e.

Definition raised {A} (r : Outcome A) : option Exn :=
  match r with Returned _ => None | Raised e => Some e end.

Definition returned {A} (r : Outcome A) : option A :=
  match r with Returned a => Some a | Raised _ => None end.

(** ** Calls that leave the adapter *)

(** The five function objects bound by
    [from .notion import (append_page, create_page, get_all_pages,
    retrieve_page, update_page_properties)]. *)
Record NotionFns : Type := {
  append_page : Value;
  create_page : Value;
  get_all_pages : Value;
  retrieve_page : Value;
  update_page_properties : Value
}.

(** One entry of the call log. *)
Inductive Event : Type :=
| EImport (module : string)
| EGetcwd
| EOpen (path mode : string)
| EClose (path : string)
| ELoadDotenv (stream : string)
| ESuperInit (self : loc)
| EGetenv (key : string)
| EClient (auth : Value)
| EImportFrom (module : string) (names : list string)
| EAddCommand (prompt : Value) (name description : string)
              (args : list (string * string)) (function : Value).

(** ** The world *)

Record World (H : Type) : Type := mkWorld {
  environ : gmap string string;   (* os.environ *)
  cwd : string;                   (* os.getcwd() *)
  files : gmap string string;     (* readable files: path -> contents *)
  heap : gmap loc Object;         (* plugin instances *)
  host : H;                       (* state owned by the collaborators *)
  trace : list (Event * option Exn) (* calls made so far, oldest first *)
}.
Arguments mkWorld {H}.
Arguments environ {H}.
Arguments cwd {H}.
Arguments files {H}.
Arguments heap {H}.
Arguments host {H}.
Arguments trace {H}.

(** The collaborators.  None of them is code of the adapter: each is an
    arbitrary function of the collaborators' own state that returns or
    raises.  [template_init] is handed [self] and so may rewrite its
    attributes; [load_dotenv] may rewrite the process environment. *)
Record Host (H : Type) : Type := mkHost {
  import_module : string -> H -> Outcome unit * H;
  load_dotenv : string -> gmap string string * H ->
                Outcome Value * (gmap string string * H);
  template_init : Object * H -> Outcome unit * (Object * H);
  Client : Value -> H -> Outcome Value * H;
  import_notion : H -> Outcome NotionFns * H;
  add_command : Value -> string -> string -> list (string * string) ->
                Value -> H -> Outcome Value * H
}.
Arguments mkHost {H}.
Arguments import_module {H}.
Arguments load_dotenv {H}.
Arguments template_init {H}.
Arguments Client {H}.
Arguments import_notion {H}.
Arguments add_command {H}.

(** ** The monad: state passing with exceptions *)

Definition M (H A : Type) : Type := World H -> Outcome A * World H.

#[global] Instance M_ret {H} : MRet (M H) :=
  fun A a w => (Returned a, w).

(** Sequencing: an exception ends the block, the state reached stays. *)
#[global] Instance M_bind {H} : MBind (M H) :=
  fun A B k m w =>
    match m w with
    | (Returned a, w') => k a w'
    | (Raised e, w') => (Raised e, w')
    end.

Section Primitives.
Context {H : Type}.

Definition set_environ (v : gmap string string) (w : World H) : World H :=
  mkWorld v (cwd w) (files w) (heap w) (host w) (trace w).
Definition set_heap (v : gmap loc Object) (w : World H) : World H :=
  mkWorld (environ w) (cwd w) (files w) v (host w) (trace w).
Definition set_host (v : H) (w : World H) : World H :=
  mkWorld (environ w) (cwd w) (files w) (heap w) v (trace w).
Definition log (ev : Event) (e : option Exn) (w : World H) : World H :=
  mkWorld (environ w) (cwd w) (files w) (heap w) (host w)
          (trace w ++ [(ev, e)]).

(** A call into a collaborator: it acts on the collaborators' state
    only, and the call is logged with the exception it raised, if any. *)
Definition extern {A} (ev : Event) (f : H -> Outcome A * H) : M H A :=
  fun w => let '(r, s) := f (host w) in
           (r, log ev (raised r) (set_host s w)).

(** [os.getenv(key)]: the value, or [None] when the variable is unset. *)
Definition getenv_value (env : gmap string string) (key : string) : Value :=
  from_option VStr VNone (env !! key).

Definition getenv (key : string) : M H Value :=
  fun w => (Returned (getenv_value (environ w) key), log (EGetenv key) None w).

(** [os.getcwd()]. *)
Definition getcwd : M H string :=
  fun w => (Returned (cwd w), log EGetcwd None w).

(** [str(Path(d) / name)] for an absolute, normalised [d], which is what
    [os.getcwd] returns: the root keeps its single slash. *)
Definition path_join (d name : string) : string :=
  if String.eqb d "/" then "/" +:+ name else d +:+ "/" +:+ name.

(** [open(path, mode)] for reading: the stream of the file's contents,
    or [FileNotFoundError]. *)
Definition open (path mode : string) : M H string :=
  fun w => match files w !! path with
           | Some contents => (Returned contents, log (EOpen path mode) None w)
           | None => let e := FileNotFoundError path in
                     (Raised e, log (EOpen path mode) (Some e) w)
           end.

(** [with open(path, mode) as fp: body]: the file is closed when the
    block is left, normally or by an exception, and the exception goes
    on; when [open] itself raises, the block is not entered. *)
Definition with_open {A} (path mode : string) (body : string -> M H A)
  : M H A :=
  fun w => match open path mode w with
           | (Returned fp, w1) =>
               let '(r, w2) := body fp w1 in (r, log (EClose path) None w2)
           | (Raised e, w1) => (Raised e, w1)
           end.

(** [self.attr = v]. *)
Definition setattr (self : loc) (attr : string) (v : Value) : M H unit :=
  fun w => (Returned tt,
            set_heap (<[self := <[attr := v]> (heap w !!! self)]> (heap w)) w).

(** [self.attr]. *)
Definition getattr (self : loc) (attr : string) : M H Value :=
  fun w => match (heap w !!! self) !! attr with
           | Some v => (Returned v, w)
           | None => (Raised (AttributeError attr), w)
           end.

(** What a host does with a capability predicate and its handler: the
    handler is invoked only when the predicate answers [True]. *)
Definition dispatch {A} (can_handle : M H bool) (handler : M H A)
  : M H (option A) :=
  b ← can_handle;
  if b : bool then (a ← handler; mret (Some a)) else mret None.
End Primitives.

(** ** The module *)

Section Adapter.
Context {H : Type} (h : Host H).

(** Lines 6-13: the imports of the three dependencies, then
    [with open(str(Path(os.getcwd()) / ".env"), "r") as fp:
         load_dotenv(stream=fp)].
    The class statements that follow bind [Message] and
    [AutoGPTNotion]; the module body returns once they are bound. *)
Definition load_dotenv_stream (fp : string) : M H Value :=
  fun w => let '(r, (env, s)) := load_dotenv h fp (environ w, host w) in
           (r, log (ELoadDotenv fp) (raised r)
                   (set_environ env (set_host s w))).

Definition module_body : M H unit :=
  extern (EImport "auto_gpt_plugin_template")
         (import_module h "auto_gpt_plugin_template") ;;
  extern (EImport "dotenv") (import_module h "dotenv") ;;
  extern (EImport "notion_client") (import_module h "notion_client") ;;
  d ← getcwd;
  with_open (path_join d ".env") "r" (fun fp => load_dotenv_stream fp) ;;
  mret tt.

(** [super().__init__()]: the template's constructor, run on [self]. *)
Definition super_init (self : loc) : M H unit :=
  fun w => let '(r, (o, s)) := template_init h (heap w !!! self, host w) in
           (r, log (ESuperInit self) (raised r)
                   (set_heap (<[self := o]> (heap w)) (set_host s w))).

Definition __init__ (self : loc) : M H Value :=
  super_init self ;;
  setattr self "_name" (VStr "autogpt-notion") ;;
  setattr self "_version" (VStr "0.1.0") ;;
  setattr self "_description"
          (VStr "Notion API integrations using notion-sdk-py") ;;
  (v ← getenv "NOTION_TOKEN"; setattr self "notion_token" v) ;;
  (v ← getenv "NOTION_DATABASE_ID"; setattr self "database_id" v) ;;
  (auth ← getattr self "notion_token";
   c ← extern (EClient auth) (Client h auth);
   setattr self "notion" c) ;;
  mret VNone.

(** *** The lifecycle hooks, in the order of the class body *)

Definition can_handle_on_response (self : loc) : M H bool :=
  mret false.

Definition on_response (self : loc) (response : Value)
           (args : list Value) (kwargs : list (string * Value)) : M H Value :=
  mret VNone.

Definition can_handle_post_prompt (self : loc) : M H bool :=
  mret true.

(** [prompt.add_command(name, description, args, function)]; the value
    the call returns is dropped by the expression statement. *)
Definition prompt_add_command (prompt : Value) (name description : string)
           (args : list (string * string)) (function : Value) : M H Value :=
  extern (EAddCommand prompt name description args function)
         (add_command h prompt name description args function).

Definition post_prompt (self : loc) (prompt : Value) : M H Value :=
  fns ← extern (EImportFrom ".notion"
                  ["append_page"; "create_page"; "get_all_pages";
                   "retrieve_page"; "update_page_properties"])
               (import_notion h);
  prompt_add_command prompt
    "notion_create_page"
    "Create a new Notion page"
    [("title", "<title>");
     ("summary", "<summary>");
     ("tags", "<list_of_tags>");
     ("content", "<content>")]
    (create_page fns) ;;
  prompt_add_command prompt
    "notion_get_all_pages"
    "Retrieves all pages properties from a database"
    []
    (get_all_pages fns) ;;
  prompt_add_command prompt
    "notion_append_page"
    "Append page content by id"
    [("page_id", "<page_id>"); ("content", "<content>")]
    (append_page fns) ;;
  prompt_add_command prompt
    "notion_retrieve_page"
    "Retrieves a page's properties and content by id"
    [("page_id", "<page_id>")]
    (retrieve_page fns) ;;
  prompt_add_command prompt
    "notion_update_page_properties"
    "Update a page's properties by id"
    [("page_id", "<page_id>");
     ("title", "<title>");
     ("summary", "<summary>");
     ("tags", "<list_of_tags>")]
    (update_page_properties fns) ;;
  mret prompt.

Definition can_handle_on_planning (self : loc) : M H bool :=
  mret false.

Definition on_planning (self : loc) (prompt messages : Value) : M H Value :=
  mret VNone.

Definition can_handle_post_planning (self : loc) : M H bool :=
  mret false.

Definition post_planning (self : loc) (response : Value) : M H Value :=
  mret VNone.

Definition can_handle_pre_instruction (self : loc) : M H bool :=
  mret false.

Definition pre_instruction (self : loc) (messages : Value) : M H Value :=
  mret VNone.

Definition can_handle_on_instruction (self : loc) : M H bool :=
  mret false.

Definition on_instruction (self : loc) (messages : Value) : M H Value :=
  mret VNone.

Definition can_handle_post_instruction (self : loc) : M H bool :=
  mret false.

Definition post_instruction (self : loc) (response : Value) : M H Value :=
  mret VNone.

Definition can_handle_pre_command (self : loc) : M H bool :=
  mret false.

Definition pre_command (self : loc) (command_name arguments : Value)
  : M H Value :=
  mret VNone.

Definition can_handle_post_command (self : loc) : M H bool :=
  mret false.

Definition post_command (self : loc) (command_name response : Value)
  : M H Value :=
  mret VNone.

Definition can_handle_chat_completion (self : loc)
           (messages model temperature max_tokens : Value) : M H bool :=
  mret false.

Definition handle_chat_completion (self : loc)
           (messages model temperature max_tokens : Value) : M H Value :=
  mret VNone.

Definition can_handle_text_embedding (self : loc) (text : Value) : M H bool :=
  mret false.

Definition handle_text_embedding (self : loc) (text : Value) : M H Value :=
  mret VNone.

Definition can_handle_user_input (self : loc) (user_input : Value)
  : M H bool :=
  mret false.

Definition user_input (self : loc) (user_input : Value) : M H Value :=
  mret user_input.

Definition can_handle_report (self : loc) : M H bool :=
  mret false.

Definition report (self : loc) (message : Value) : M H Value :=
  mret VNone.
End Adapter.

(** ** Invocations *)

(** The thirteen lifecycle hooks of the plugin interface. *)
Inductive Hook : Type :=
| HOnResponse | HPostPrompt | HOnPlanning | HPostPlanning
| HPreInstruction | HOnInstruction | HPostInstruction
| HPreCommand | HPostCommand | HChatCompletion | HTextEmbedding
| HUserInput | HReport.

(** A call of one method of the class, with its arguments. *)
Inductive Invocation : Type :=
| CanHandleOnResponse
| OnResponse (response : Value) (args : list Value)
             (kwargs : list (string * Value))
| CanHandlePostPrompt
| PostPrompt (prompt : Value)
| CanHandleOnPlanning
| OnPlanning (prompt messages : Value)
| CanHandlePostPlanning
| PostPlanning (response : Value)
| CanHandlePreInstruction
| PreInstruction (messages : Value)
| CanHandleOnInstruction
| OnInstruction (messages : Value)
| CanHandlePostInstruction
| PostInstruction (response : Value)
| CanHandlePreCommand
| PreCommand (command_name arguments : Value)
| CanHandlePostCommand
| PostCommand (command_name response : Value)
| CanHandleChatCompletion (messages model temperature max_tokens : Value)
| HandleChatCompletion (messages model temperature max_tokens : Value)
| CanHandleTextEmbedding (text : Value)
| HandleTextEmbedding (text : Value)
| CanHandleUserInput (user_input : Value)
| UserInput (user_input : Value)
| CanHandleReport
| Report (message : Value).

Definition hook_of (c : Invocation) : Hook :=
  match c with
  | CanHandleOnResponse | OnResponse _ _ _ => HOnResponse
  | CanHandlePostPrompt | PostPrompt _ => HPostPrompt
  | CanHandleOnPlanning | OnPlanning _ _ => HOnPlanning
  | CanHandlePostPlanning | PostPlanning _ => HPostPlanning
  | CanHandlePreInstruction | PreInstruction _ => HPreInstruction
  | CanHandleOnInstruction | OnInstruction _ => HOnInstruction
  | CanHandlePostInstruction | PostInstruction _ => HPostInstruction
  | CanHandlePreCommand | PreCommand _ _ => HPreCommand
  | CanHandlePostCommand | PostCommand _ _ => HPostCommand
  | CanHandleChatCompletion _ _ _ _ | HandleChatCompletion _ _ _ _ =>
      HChatCompletion
  | CanHandleTextEmbedding _ | HandleTextEmbedding _ => HTextEmbedding
  | CanHandleUserInput _ | UserInput _ => HUserInput
  | CanHandleReport | Report _ => HReport
  end.

(** Is the invocation one of a capability predicate [can_handle_*]? *)
Definition is_predicate (c : Invocation) : bool :=
  match c with
  | CanHandleOnResponse | CanHandlePostPrompt | CanHandleOnPlanning
  | CanHandlePostPlanning | CanHandlePreInstruction
  | CanHandleOnInstruction | CanHandlePostInstruction
  | CanHandlePreCommand | CanHandlePostCommand
  | CanHandleChatCompletion _ _ _ _ | CanHandleTextEmbedding _
  | CanHandleUserInput _ | CanHandleReport => true
  | _ => false
  end.

Section Invoke.
Context {H : Type} (h : Host H).

(** A predicate's answer as a Python value. *)
Definition boolean (m : M H bool) : M H Value :=
  b ← m; mret (VBool b).

Definition invoke (self : loc) (c : Invocation) : M H Value :=
  match c with
  | CanHandleOnResponse => boolean (can_handle_on_response self)
  | OnResponse r args kwargs => on_response self r args kwargs
  | CanHandlePostPrompt => boolean (can_handle_post_prompt self)
  | PostPrompt p => post_prompt h self p
  | CanHandleOnPlanning => boolean (can_handle_on_planning self)
  | OnPlanning p ms => on_planning self p ms
  | CanHandlePostPlanning => boolean (can_handle_post_planning self)
  | PostPlanning r => post_planning self r
  | CanHandlePreInstruction => boolean (can_handle_pre_instruction self)
  | PreInstruction ms => pre_instruction self ms
  | CanHandleOnInstruction => boolean (can_handle_on_instruction self)
  | OnInstruction ms => on_instruction self ms
  | CanHandlePostInstruction => boolean (can_handle_post_instruction self)
  | PostInstruction r => post_instruction self r
  | CanHandlePreCommand => boolean (can_handle_pre_command self)
  | PreCommand n a => pre_command self n a
  | CanHandlePostCommand => boolean (can_handle_post_command self)
  | PostCommand n r => post_command self n r
  | CanHandleChatCompletion ms m t k =>
      boolean (can_handle_chat_completion self ms m t k)
  | HandleChatCompletion ms m t k => handle_chat_completion self ms m t k
  | CanHandleTextEmbedding t => boolean (can_handle_text_embedding self t)
  | HandleTextEmbedding t => handle_text_embedding self t
  | CanHandleUserInput x => boolean (can_handle_user_input self x)
  | UserInput x => user_input self x
  | CanHandleReport => boolean (can_handle_report self)
  | Report m => report self m
  end.

(** A host driving the plugin: the invocations run one after the other
    on the same instance, each outcome (a value or an exception) going
    back to the host. *)
Fixpoint run_hooks (self : loc) (cs : list Invocation) (w : World H)
  : list (Outcome Value) * World H :=
  match cs with
  | [] => ([], w)
  | c :: cs' =>
      let '(r, w1) := invoke self c w in
      let '(rs, w2) := run_hooks self cs' w1 in
      (r :: rs, w2)
  end.

(** Every entry point of the module: its top-level code, the
    constructor, and the methods. *)
Inductive Operation : Type :=
| OpModule
| OpInit
| OpHook (c : Invocation).

Definition perform (self : loc) (op : Operation) : M H Value :=
  match op with
  | OpModule => module_body h ;; mret VNone
  | OpInit => __init__ h self
  | OpHook c => invoke self c
  end.

(** The host's [from notion import AutoGPTNotion] followed by
    [AutoGPTNotion()] on a freshly allocated [self]. *)
Definition import_then_construct (self : loc) : M H Value :=
  module_body h ;; __init__ h self.
End Invoke.

(** ** Reading the call log *)

Section Log.
Context {H : Type}.

(** The calls made between two worlds of one run. *)
Definition new_events (w w' : World H) : list (Event * option Exn) :=
  drop (length (trace w)) (trace w').

(** The command registrations among logged calls: the receiver, the
    command name and the keys of the argument template. *)
Definition registrations (evs : list (Event * option Exn))
  : list (Value * string * list string) :=
  omap (fun '(ev, _) =>
          match ev with
          | EAddCommand p name _ args _ => Some (p, name, args.*1)
          | _ => None
          end) evs.

(** The environment variables read among logged calls. *)
Definition getenv_reads (evs : list (Event * option Exn)) : list string :=
  omap (fun '(ev, _) =>
          match ev with EGetenv k => Some k | _ => None end) evs.

(** The clients instantiated among logged calls, by their [auth]. *)
Definition clients (evs : list (Event * option Exn)) : list Value :=
  omap (fun '(ev, _) =>
          match ev with EClient a => Some a | _ => None end) evs.
End Log.

(** The value an invocation yields when it returns, as a function of its
    arguments alone. *)
Definition result_of (c : Invocation) : Value :=
  match c with
  | CanHandlePostPrompt => VBool true
  | PostPrompt p => p
  | UserInput x => x
  | _ => if is_predicate c then VBool false else VNone
  end.

(** ** The registration table of the specification (section 6):
    command name and argument names, in the order of the table. *)
Definition command_table : list (string * list string) :=
  [("notion_create_page", ["title"; "summary"; "tags"; "content"]);
   ("notion_get_all_pages", []);
   ("notion_append_page", ["page_id"; "content"]);
   ("notion_retrieve_page", ["page_id"]);
   ("notion_update_page_properties",
    ["page_id"; "title"; "summary"; "tags"])].

(** The five registrations, on prompt [p], run one after the other on the
    collaborators' state: the first that raises ends the run. *)
Fixpoint register_all {H} (h : Host H) (p : Value)
         (cmds : list (string * string * list (string * string) * Value))
         (s : H) : Outcome unit * H * list (Event * option Exn) :=
  match cmds with
  | [] => (Returned tt, s, [])
  | (name, description, args, function) :: rest =>
      let ev := EAddCommand p name description args function in
      match add_command h p name description args function s with
      | (Returned _, s') =>
          let '(r, s'', evs) := register_all h p rest s' in
          (r, s'', (ev, None) :: evs)
      | (Raised e, s') => (Raised e, s', [(ev, Some e)])
      end
  end.

(** The registrations the table asks for on prompt [p]. *)
Definition expected_registrations (p : Value)
  : list (Value * string * list string) :=
  (fun '(name, keys) => (p, name, keys)) <$> command_table.

(** The five command descriptors (name, description, argument template,
    handler reference) that [post_prompt] builds from the imported
    functions. *)
Definition notion_commands (fns : NotionFns)
  : list (string * string * list (string * string) * Value) :=
  [("notion_create_page", "Create a new Notion page",
    [("title", "<title>"); ("summary", "<summary>");
     ("tags", "<list_of_tags>"); ("content", "<content>")],
    create_page fns);
   ("notion_get_all_pages", "Retrieves all pages properties from a database",
    [], get_all_pages fns);
   ("notion_append_page", "Append page content by id",
    [("page_id", "<page_id>"); ("content", "<content>")],
    append_page fns);
   ("notion_retrieve_page", "Retrieves a page's properties and content by id",
    [("page_id", "<page_id>")],
    retrieve_page fns);
   ("notion_update_page_properties", "Update a page's properties by id",
    [("page_id", "<page_id>"); ("title", "<title>");
     ("summary", "<summary>"); ("tags", "<list_of_tags>")],
    update_page_properties fns)].

(** The log entry of [from .notion import (...)]. *)
Definition import_from_notion : Event :=
  EImportFrom ".notion"
    ["append_page"; "create_page"; "get_all_pages"; "retrieve_page";
     "update_page_properties"].

(** "Import the handlers, then register the five commands on [p], and
    nothing else": the outcome, the collaborators' state and the calls. *)
Definition import_then_register {H} (h : Host H) (p : Value) (s : H)
  : Outcome unit * H * list (Event * option Exn) :=
  match import_notion h s with
  | (Returned fns, s1) =>
      let '(r, s2, evs) := register_all h p (notion_commands fns) s1 in
      (r, s2, (import_from_notion, None) :: evs)
  | (Raised e, s1) => (Raised e, s1, [(import_from_notion, Some e)])
  end.

(** An operation lets exceptions through: every call it makes that
    raises ends it with that very exception, and it raises nothing that
    one of its calls did not raise. *)
Definition propagates {H A} (m : M H A) : Prop :=
  forall w, exists evs,
    trace (m w).2 = trace w ++ evs /\
    (forall ev e, (ev, Some e) ∈ evs -> (m w).1 = Raised e) /\
    (forall e, (m w).1 = Raised e -> exists ev, (ev, Some e) ∈ evs).

(** The attributes of [self] once [__init__] has stored its three
    constants and the two configuration values read from [env]. *)
Definition configured_object (env : gmap string string) (o : Object)
  : Object :=
  <["database_id" := getenv_value env "NOTION_DATABASE_ID"]>
    (<["notion_token" := getenv_value env "NOTION_TOKEN"]>
       (<["_description" :=
            VStr "Notion API integrations using notion-sdk-py"]>
          (<["_version" := VStr "0.1.0"]>
             (<["_name" := VStr "autogpt-notion"]> o)))).

(** The calls a run of hooks may make: the handler import and
    registrations on some prompt. *)
Definition registration_call (x : Event * option Exn) : Prop :=
  match x.1 with
  | EImportFrom _ _ | EAddCommand _ _ _ _ _ => True
  | _ => False
  end.

(** The attributes [__init__] sets on [self]. *)
Definition adapter_fields : list string :=
  ["_name"; "_version"; "_description";
   "notion_token"; "database_id"; "notion"].

(** ** A concrete host, to run the adapter on *)

Module Demo.

(** The collaborators' state: the commands registered so far, as
    (prompt, name), oldest first. *)
Definition fns : NotionFns :=
  {| append_page := VObj 11; create_page := VObj 12;
     get_all_pages := VObj 13; retrieve_page := VObj 14;
     update_page_properties := VObj 15 |}.

(** A prompt generator that appends each registration to its list; with
    [strict], one that refuses a name it already holds. *)
Definition collaborators (strict : bool) : Host (list (Value * string)) :=
  mkHost
    (fun _ s => (Returned tt, s))
    (fun _ es => (Returned (VBool true), es))
    (fun os => (Returned tt,
                (<["_name" := VStr "Auto-GPT-Plugin-Template"]> os.1, os.2)))
    (fun _ s => (Returned (VObj 20), s))
    (fun s => (Returned fns, s))
    (fun p name _ _ _ s =>
       if strict && existsb (String.eqb name) s.*2
       then (Raised (Exc "ValueError" [VStr name]), s)
       else (Returned VNone, s ++ [(p, name)])).

(** A process started in [/srv/agent] with no [.env] file and no Notion
    configuration; object 1 is a freshly allocated plugin instance. *)
Definition bare : World (list (Value * string)) :=
  mkWorld {["HOME" := "/root"]} "/srv/agent" ∅ {[1%positive := ∅]} [] [].

(** The same process with a [.env] file and the two variables set. *)
Definition configured : World (list (Value * string)) :=
  mkWorld {["NOTION_TOKEN" := "secret_abc"; "NOTION_DATABASE_ID" := "db42"]}
          "/srv/agent"
          {["/srv/agent/.env" := "NOTION_TOKEN=secret_abc"]}
          {[1%positive := ∅]} [] [].

(** The prompt generator handed over by the host. *)
Definition prompt : Value := VObj 7.

End Demo.

(** ** Further readings of the call log *)

(** The handler bound to each registered command name. *)
Definition bindings (evs : list (Event * option Exn))
  : list (string * Value) :=
  omap (fun '(ev, _) =>
          match ev with
          | EAddCommand _ name _ _ f => Some (name, f)
          | _ => None
          end) evs.

(** The [add_command] call that registers descriptor [c] on prompt [p]. *)
Definition call_of (p : Value)
           (c : string * string * list (string * string) * Value) : Event :=
  EAddCommand p c.1.1.1 c.1.1.2 c.1.2 c.2.

(** A call of [add_command] on prompt [p]. *)
Definition registration_on (p : Value) (x : Event * option Exn) : Prop :=
  match x.1 with
  | EAddCommand q _ _ _ _ => q = p
  | _ => False
  end.

(** A call that touches the [.env] file or its loader. *)
Definition file_call (x : Event * option Exn) : Prop :=
  match x.1 with
  | EGetcwd | EOpen _ _ | EClose _ | ELoadDotenv _ => True
  | _ => False
  end.

(** The three third-party imports at the head of the module. *)
Definition dependencies : list string :=
  ["auto_gpt_plugin_template"; "dotenv"; "notion_client"].

(** ** Collaborators that fail *)

Module Faulty.

Inductive Fault : Type :=
| NoFault
| DependencyMissing (module : string)
| DotenvFails
| TemplateFails
| ClientFails
| HandlersMissing
| RegistryFull (limit : nat).

Definition fault_eqb_module (f : Fault) (m : string) : bool :=
  match f with DependencyMissing m' => String.eqb m m' | _ => false end.

(** The collaborators of [Demo], one of which may fail; [load_dotenv]
    here takes the whole file for the token and sets it when unset. *)
Definition collaborators (f : Fault) : Host (list (Value * string)) :=
  mkHost
    (fun m s => if fault_eqb_module f m
                then (Raised (Exc "ModuleNotFoundError" [VStr m]), s)
                else (Returned tt, s))
    (fun fp es =>
       match f with
       | DotenvFails => (Raised (Exc "UnicodeDecodeError" []), es)
       | _ => (Returned (VBool true),
               (match es.1 !! "NOTION_TOKEN" with
                | Some _ => es.1
                | None => <["NOTION_TOKEN" := fp]> es.1
                end, es.2))
       end)
    (fun os =>
       match f with
       | TemplateFails => (Raised (Exc "TypeError" []), os)
       | _ => (Returned tt,
               (<["_name" := VStr "Auto-GPT-Plugin-Template"]>
                  (<["_version" := VStr "0.0.0"]>
                     (<["extra" := VInt 1]> os.1)), os.2))
       end)
    (fun auth s =>
       match f with
       | ClientFails => (Raised (Exc "ConnectError" [auth]), s)
       | _ => (Returned (VObj 20), s)
       end)
    (fun s =>
       match f with
       | HandlersMissing => (Raised (Exc "ImportError" [VStr ".notion"]), s)
       | _ => (Returned Demo.fns, s)
       end)
    (fun p name _ _ _ s =>
       match f with
       | RegistryFull n =>
           if Nat.leb n (length s)
           then (Raised (Exc "OverflowError" [VStr name]), s)
           else (Returned VNone, s ++ [(p, name)])
       | _ => (Returned VNone, s ++ [(p, name)])
       end).

(** A process whose environment holds no Notion variable, with a
    [.env] file; objects 1 and 2 are allocated, 2 already has a field. *)
Definition from_file : World (list (Value * string)) :=
  mkWorld {["HOME" := "/root"]} "/srv/agent"
          {["/srv/agent/.env" := "secret_from_file"]}
          {[1%positive := ∅; 2%positive := {["kept" := VInt 5]}]} [] [].


End Faulty.

(** * Properties *)

(** Membership in a log that is written out: every entry is tried. *)
Ltac from_log Hin :=
  repeat (apply elem_of_cons in Hin as [Hin|Hin]; [by simplify_eq|]);
  by apply elem_of_nil in Hin.

Ltac in_log :=
  repeat first [apply list_elem_of_here | apply list_elem_of_further].

Section Facts.
Context {H : Type}.
Implicit Types (w : World H) (self : loc).

Lemma new_events_app w w' evs :
  trace w' = trace w ++ evs -> new_events w w' = evs.
Proof. unfold new_events. intros ->. apply drop_app_length. Qed.

Lemma new_events_refl w : new_events w w = [].
Proof. apply new_events_app. by rewrite app_nil_r. Qed.
End Facts.

(** C3. [user_input(x)] returns [x] itself, for every argument [x] (a
    string [VStr s] in particular), and touches nothing. *)
Theorem user_input_identity {H} (self : loc) (x : Value) (w : World H) :
  user_input self x w = (Returned x, w).
Proof. reflexivity. Qed.

(** C9. [can_handle_post_prompt()] answers [True] in every state, so a
    host that consults the predicate before the handler always runs
    [post_prompt]. *)
Theorem can_handle_post_prompt_true {H} (h : Host H) (self : loc)
        (p : Value) (w : World H) :
  can_handle_post_prompt self w = (Returned true, w) /\
  dispatch (can_handle_post_prompt self) (post_prompt h self p) w
  = (v ← post_prompt h self p; mret (Some v)) w.
Proof. split; reflexivity. Qed.

(** C4. For each of the eleven hooks other than [post_prompt] and
    [user_input], on every input and in every state, the capability
    predicate returns [False], the handler returns [None], and neither
    changes anything nor calls out. *)
Theorem stub_hooks_false_and_noop {H} (h : Host H) (self : loc)
        (c : Invocation) (w : World H) :
  hook_of c <> HPostPrompt -> hook_of c <> HUserInput ->
  invoke h self c w
  = (Returned (if is_predicate c then VBool false else VNone), w).
Proof. destruct c; simpl; intros Hp Hu; try reflexivity; congruence. Qed.

Lemma stub_hooks_false_and_noop_witness :
  let c := HandleChatCompletion (VList []) (VStr "gpt-4")
                                (VFloat (S754_zero false)) (VInt 256) in
  (hook_of c <> HPostPrompt /\ hook_of c <> HUserInput) /\
  invoke (Demo.collaborators false) 1%positive c Demo.bare = (Returned VNone, Demo.bare).
Proof.
  split; [split; discriminate |].
  apply (stub_hooks_false_and_noop (Demo.collaborators false) 1%positive
           (HandleChatCompletion (VList []) (VStr "gpt-4")
                                 (VFloat (S754_zero false)) (VInt 256)));
    discriminate.
Defined.

Section PostPrompt.
Context {H : Type} (h : Host H).
Implicit Types (w : World H) (self : loc) (p : Value).

Ltac call_out :=
  match goal with
  | |- context [import_notion ?h ?s] =>
      destruct (import_notion h s) as [[?|?] ?] eqn:?
  | |- context [add_command ?h ?p ?n ?d ?a ?f ?s] =>
      destruct (add_command h p n d a f s) as [[?|?] ?] eqn:?
  end;
  cbn [fst snd trace log set_host host raised environ cwd files heap].

(** [post_prompt] is the script [import_then_register], run on the
    collaborators' state of the world it is called in. *)
Lemma post_prompt_run self p w :
  post_prompt h self p w =
  let '(r, s, evs) := import_then_register h p (host w) in
  (match r with Returned _ => Returned p | Raised e => Raised e end,
   mkWorld (environ w) (cwd w) (files w) (heap w) s (trace w ++ evs)).
Proof.
  unfold post_prompt, prompt_add_command, extern, mbind, M_bind, mret, M_ret,
    import_then_register, import_from_notion, log, set_host.
  cbn [fst snd trace host raised environ cwd files heap
       register_all notion_commands].
  repeat (call_out; rewrite <- ?app_assoc; try reflexivity).
Qed.

(** The registrations logged by [register_all] follow the list of
    commands, and cover it when the run returns. *)
Lemma register_all_registrations p cmds (s : H) :
  let keys := fun c : string * string * list (string * string) * Value =>
                (p, c.1.1.1, c.1.2.*1) in
  registrations (register_all h p cmds s).2 `prefix_of` (keys <$> cmds) /\
  (forall u, (register_all h p cmds s).1.1 = Returned u ->
             registrations (register_all h p cmds s).2 = keys <$> cmds).
Proof.
  revert s. induction cmds as [|[[[name d] args] f] rest IH]; intros s; simpl.
  - split; [apply prefix_nil | done].
  - destruct (add_command h p name d args f s) as [[v|e] s'].
    + destruct (IH s') as [IHp IHe].
      destruct (register_all h p rest s') as [[r s''] evs]. simpl in *.
      split; [by apply prefix_cons | intros u Hu; f_equal; eauto].
    + simpl. split; [apply prefix_cons, prefix_nil | done].
Qed.
End PostPrompt.

(** C1. On every prompt [p], with any collaborators and in any state,
    the registrations [post_prompt(p)] performs are made on [p] and
    follow the table of section 6 in its order; when [post_prompt]
    returns they are exactly the table's five: the names
    notion_create_page, notion_get_all_pages, notion_append_page,
    notion_retrieve_page, notion_update_page_properties with the
    argument keys title/summary/tags/content, none, page_id/content,
    page_id, page_id/title/summary/tags. *)
Theorem post_prompt_registers_five {H} (h : Host H) (self : loc)
        (p : Value) (w : World H) :
  let r := post_prompt h self p w in
  let regs := registrations (new_events w r.2) in
  regs `prefix_of` expected_registrations p /\
  (forall v, r.1 = Returned v ->
     regs = expected_registrations p /\ length regs = 5).
Proof.
  cbv zeta. rewrite post_prompt_run. unfold import_then_register.
  destruct (import_notion h (host w)) as [[fns|e] s1].
  - pose proof (register_all_registrations h p (notion_commands fns) s1)
      as [Hpre Heq].
    destruct (register_all h p (notion_commands fns) s1) as [[r s2] evs].
    cbn [fst snd] in *. erewrite new_events_app by reflexivity.
    change (registrations ((import_from_notion, None) :: evs))
      with (registrations evs).
    split; [exact Hpre |].
    intros v Hv. destruct r as [u|e]; [|discriminate].
    rewrite (Heq u eq_refl). split; reflexivity.
  - cbn [fst snd]. erewrite new_events_app by reflexivity.
    split; [apply prefix_nil | discriminate].
Qed.

Lemma post_prompt_registers_five_witness :
  let r := post_prompt (Demo.collaborators false) 1%positive Demo.prompt
                       Demo.bare in
  r.1 = Returned Demo.prompt /\
  registrations (new_events Demo.bare r.2)
  = [(VObj 7, "notion_create_page", ["title"; "summary"; "tags"; "content"]);
     (VObj 7, "notion_get_all_pages", []);
     (VObj 7, "notion_append_page", ["page_id"; "content"]);
     (VObj 7, "notion_retrieve_page", ["page_id"]);
     (VObj 7, "notion_update_page_properties",
      ["page_id"; "title"; "summary"; "tags"])].
Proof.
  split; [reflexivity |].
  exact (proj1 (proj2 (post_prompt_registers_five (Demo.collaborators false)
                         1%positive Demo.prompt Demo.bare)
                      Demo.prompt eq_refl)).
Defined.

(** C2. [post_prompt(p)] hands back [p] itself whenever it returns, and
    the world it leaves differs from the one it found only in the
    collaborators' state and the call log, which are those of importing
    the handlers and registering the five commands on [p]: the plugin
    instances (the adapter's own fields among them), the environment and
    the file system are untouched. *)
Theorem post_prompt_returns_prompt_and_frame {H} (h : Host H) (self : loc)
        (p : Value) (w : World H) :
  let r := post_prompt h self p w in
  (forall v, r.1 = Returned v -> v = p) /\
  heap r.2 = heap w /\ environ r.2 = environ w /\
  cwd r.2 = cwd w /\ files r.2 = files w /\
  exists (o : Outcome unit) (s : H) (evs : list (Event * option Exn)),
    import_then_register h p (host w) = (o, s, evs) /\
    host r.2 = s /\ trace r.2 = trace w ++ evs /\
    r.1 = match o with Returned _ => Returned p | Raised e => Raised e end.
Proof.
  cbv zeta. rewrite post_prompt_run.
  destruct (import_then_register h p (host w)) as [[o s] evs].
  cbn [fst snd heap environ cwd files host trace].
  split; [destruct o; intros v Hv; by simplify_eq |].
  do 4 (split; [reflexivity |]).
  by exists o, s, evs.
Qed.

Lemma post_prompt_returns_prompt_and_frame_witness :
  (post_prompt (Demo.collaborators false) 1%positive Demo.prompt Demo.bare).1
  = Returned (VObj 7) /\
  VObj 7 = Demo.prompt.
Proof.
  split; [reflexivity |].
  exact (proj1 (post_prompt_returns_prompt_and_frame
                  (Demo.collaborators false) 1%positive Demo.prompt Demo.bare)
               (VObj 7) eq_refl).
Defined.

Section Construction.
Context {H : Type} (h : Host H).
Implicit Types (w : World H) (self : loc).

(** [__init__], call by call. *)
Lemma init_run self w :
  __init__ h self w =
  let tok := getenv_value (environ w) "NOTION_TOKEN" in
  match template_init h (heap w !!! self, host w) with
  | (Returned _, (o, s)) =>
      let o' := configured_object (environ w) o in
      let reads := [(ESuperInit self, None);
                    (EGetenv "NOTION_TOKEN", None);
                    (EGetenv "NOTION_DATABASE_ID", None)] in
      match Client h tok s with
      | (Returned c, s') =>
          (Returned VNone,
           mkWorld (environ w) (cwd w) (files w)
                   (<[self := <["notion" := c]> o']> (heap w)) s'
                   (trace w ++ reads ++ [(EClient tok, None)]))
      | (Raised e, s') =>
          (Raised e,
           mkWorld (environ w) (cwd w) (files w)
                   (<[self := o']> (heap w)) s'
                   (trace w ++ reads ++ [(EClient tok, Some e)]))
      end
  | (Raised e, (o, s)) =>
      (Raised e,
       mkWorld (environ w) (cwd w) (files w) (<[self := o]> (heap w)) s
               (trace w ++ [(ESuperInit self, Some e)]))
  end.
Proof.
  destruct w as [env d fs hp s0 tr].
  lazy beta iota zeta delta
    [__init__ super_init setattr getenv getattr extern mbind M_bind mret M_ret
     log set_heap set_host environ cwd files heap host trace raised
     configured_object].
  destruct (template_init h (hp !!! self, s0)) as [[[]|e] [o s]];
    [|reflexivity].
  rewrite !lookup_total_insert_eq, !insert_insert_eq.
  rewrite lookup_insert_ne by done. rewrite lookup_insert_eq.
  destruct (Client h _ s) as [[c|e] s'].
  - rewrite !lookup_total_insert_eq, !insert_insert_eq.
    rewrite <- !app_assoc. reflexivity.
  - rewrite <- !app_assoc. reflexivity.
Qed.

Lemma registration_calls_no_getenv evs :
  Forall registration_call evs -> getenv_reads evs = [].
Proof.
  induction 1 as [|[ev o] evs Hx _ IH]; [done|].
  destruct ev; try (by destruct Hx); exact IH.
Qed.

Lemma register_all_calls p cmds (s : H) :
  Forall registration_call (register_all h p cmds s).2.
Proof.
  revert s. induction cmds as [|[[[name d] args] f] rest IH]; intros s; simpl.
  - constructor.
  - destruct (add_command h p name d args f s) as [[v|e] s'].
    + specialize (IH s').
      destruct (register_all h p rest s') as [[r s''] evs]. simpl in *.
      by constructor.
    + simpl. by repeat constructor.
Qed.

Lemma import_then_register_calls p (s : H) :
  Forall registration_call (import_then_register h p s).2.
Proof.
  unfold import_then_register.
  destruct (import_notion h s) as [[fns|e] s1].
  - pose proof (register_all_calls p (notion_commands fns) s1) as Hc.
    destruct (register_all h p (notion_commands fns) s1) as [[r s2] evs].
    simpl in *. by constructor.
  - simpl. by repeat constructor.
Qed.

(** A hook leaves the plugin instances, the environment and the file
    system as they are; what it returns is fixed by its arguments; and
    only [post_prompt] can raise or call out. *)
Lemma invoke_frame self c w :
  let r := invoke h self c w in
  heap r.2 = heap w /\ environ r.2 = environ w /\
  cwd r.2 = cwd w /\ files r.2 = files w /\
  (exists evs, trace r.2 = trace w ++ evs /\ Forall registration_call evs) /\
  (forall v, r.1 = Returned v -> v = result_of c) /\
  (hook_of c <> HPostPrompt \/ is_predicate c = true ->
   r = (Returned (result_of c), w)).
Proof.
  assert (Hnil : exists evs : list (Event * option Exn),
             trace w = trace w ++ evs /\ Forall registration_call evs)
    by (exists []; by rewrite app_nil_r).
  destruct c;
    try (cbn; repeat split; [exact Hnil | by intros ? [= <-]]).
  cbv zeta. cbn [invoke result_of]. rewrite post_prompt_run.
  pose proof (import_then_register_calls prompt (host w)) as Hc.
  destruct (import_then_register h prompt (host w)) as [[r s] evs].
  cbn [fst snd heap environ cwd files trace] in *.
  repeat split; eauto.
  - destruct r; intros v Hv; by simplify_eq.
  - intros [Hne|Hp]; [by destruct Hne | discriminate].
Qed.

Lemma run_hooks_frame self cs w :
  let r := run_hooks h self cs w in
  heap r.2 = heap w /\ environ r.2 = environ w /\
  cwd r.2 = cwd w /\ files r.2 = files w /\
  exists evs, trace r.2 = trace w ++ evs /\ Forall registration_call evs.
Proof.
  revert w. induction cs as [|c cs IH]; intros w; simpl.
  - repeat split. exists []. by rewrite app_nil_r.
  - destruct (invoke_frame self c w) as (Hh & He & Hc & Hf & (evs1 & Ht & Hr) & _).
    destruct (invoke h self c w) as [r w1]. simpl in *.
    destruct (IH w1) as (Hh' & He' & Hc' & Hf' & (evs2 & Ht' & Hr')).
    destruct (run_hooks h self cs w1) as [rs w2]. simpl in *.
    repeat split; try congruence.
    exists (evs1 ++ evs2). split; [|by apply Forall_app].
    by rewrite Ht', Ht, app_assoc.
Qed.
End Construction.

(** C6. [__init__] reads the process environment for NOTION_TOKEN and
    then NOTION_DATABASE_ID, once each and nothing else; it stores what
    it read as it is, [None] for an unset variable included, in
    [notion_token] and [database_id], never raising on its own account;
    it instantiates the client with the stored token and keeps it in
    [notion]; and no later hook reads the environment or changes what was
    stored. *)
Theorem init_reads_configuration_once {H} (h : Host H) (self : loc)
        (w : World H) :
  let r := __init__ h self w in
  let evs := new_events w r.2 in
  let token := getenv_value (environ w) "NOTION_TOKEN" in
  let database := getenv_value (environ w) "NOTION_DATABASE_ID" in
  getenv_reads evs `prefix_of` ["NOTION_TOKEN"; "NOTION_DATABASE_ID"] /\
  environ r.2 = environ w /\
  (forall e, r.1 = Raised e ->
     (ESuperInit self, Some e) ∈ evs \/ (EClient token, Some e) ∈ evs) /\
  (forall v, r.1 = Returned v ->
     getenv_reads evs = ["NOTION_TOKEN"; "NOTION_DATABASE_ID"] /\
     (heap r.2 !!! self) !! "notion_token" = Some token /\
     (heap r.2 !!! self) !! "database_id" = Some database /\
     clients evs = [token] /\
     (exists c s, Client h token s = (Returned c, host r.2) /\
                  (heap r.2 !!! self) !! "notion" = Some c) /\
     forall cs,
       let r' := run_hooks h self cs r.2 in
       getenv_reads (new_events r.2 r'.2) = [] /\
       heap r'.2 = heap r.2 /\ environ r'.2 = environ r.2).
Proof.
  cbv zeta. rewrite init_run. cbv zeta.
  destruct (template_init h (heap w !!! self, host w)) as [[[]|e] [o s]].
  - destruct (Client h _ s) as [[c|e] s'] eqn:HC;
      cbn [fst snd]; erewrite new_events_app by reflexivity;
      cbn [environ heap host].
    + split; [done|]. split; [done|]. split; [done|].
      intros v _. rewrite lookup_total_insert_eq. unfold configured_object.
      split; [done|].
      split; [by rewrite !lookup_insert_ne, lookup_insert_eq by done|].
      split; [by rewrite lookup_insert_ne, lookup_insert_eq by done|].
      split; [done|].
      split; [exists c, s; split; [done | by rewrite lookup_insert_eq] |].
      intros cs.
      match goal with |- context [run_hooks h self cs ?w1] =>
        destruct (run_hooks_frame h self cs w1) as (Hh & He & _ & _ & evs & Ht & Hr)
      end.
      erewrite new_events_app by exact Ht.
      split; [by apply registration_calls_no_getenv | done].
    + split; [done|]. split; [done|].
      split; [|discriminate].
      intros ? [= <-]. right. set_solver.
  - cbn [fst snd]. erewrite new_events_app by reflexivity.
    cbn [environ]. split; [apply prefix_nil|]. split; [done|].
    split; [|discriminate].
    intros ? [= <-]. left. set_solver.
Qed.

Lemma init_reads_configuration_once_witness :
  let r := __init__ (Demo.collaborators false) 1%positive Demo.configured in
  r.1 = Returned VNone /\
  getenv_reads (new_events Demo.configured r.2)
  = ["NOTION_TOKEN"; "NOTION_DATABASE_ID"] /\
  (heap r.2 !!! 1%positive) !! "notion_token" = Some (VStr "secret_abc") /\
  (heap r.2 !!! 1%positive) !! "database_id" = Some (VStr "db42").
Proof.
  split; [reflexivity |].
  pose proof (proj2 (proj2 (proj2
    (init_reads_configuration_once (Demo.collaborators false) 1%positive
       Demo.configured))) VNone eq_refl) as (Hreads & Htok & Hdb & _).
  split; [exact Hreads |]. split; [exact Htok | exact Hdb].
Defined.

(** ** Exceptions *)

Create HintDb propagate.

Section Propagation.
Context {H : Type} (h : Host H).
Implicit Types (w : World H) (self : loc).

Lemma propagates_ret {A} (a : A) : propagates (mret a : M H A).
Proof.
  intros w. exists []. cbn. rewrite app_nil_r.
  split; [done|]. split; [intros ?? Hin; inversion Hin | discriminate].
Qed.

Lemma propagates_bind {A B} (m : M H A) (k : A -> M H B) :
  propagates m -> (forall a, propagates (k a)) -> propagates (m ≫= k).
Proof.
  intros Hm Hk w. destruct (Hm w) as (evs1 & Ht1 & Hin1 & Hout1).
  unfold mbind, M_bind. destruct (m w) as [[a|e] w1]; cbn [fst snd] in *.
  - destruct (Hk a w1) as (evs2 & Ht2 & Hin2 & Hout2).
    exists (evs1 ++ evs2). rewrite Ht2, Ht1, app_assoc.
    split; [done|]. split.
    + intros ev e [Hin|Hin]%elem_of_app; [|by eauto].
      by specialize (Hin1 _ _ Hin).
    + intros e He. destruct (Hout2 e He) as [ev Hev].
      exists ev. apply elem_of_app. by right.
  - exists evs1. split; [done|]. split.
    + intros ev e0 Hin. specialize (Hin1 _ _ Hin). by simplify_eq.
    + intros e0 [= <-]. by apply Hout1.
Qed.

(** One logged call that changes no earlier log entry. *)
Lemma propagates_call {A} (ev : Event) (r : Outcome A) (w w' : World H) :
  trace w' = trace w ->
  exists evs, trace (log ev (raised r) w') = trace w ++ evs /\
    (forall ev' e, (ev', Some e) ∈ evs -> r = Raised e) /\
    (forall e, r = Raised e -> exists ev', (ev', Some e) ∈ evs).
Proof.
  intros Ht. exists [(ev, raised r)]. cbn. rewrite Ht. split; [done|]. split.
  - intros ev' e [= _ He]%list_elem_of_singleton. by destruct r as [|e']; simplify_eq/=.
  - intros e ->. exists ev. by apply list_elem_of_singleton.
Qed.

Lemma propagates_extern {A} (ev : Event) (f : H -> Outcome A * H) :
  propagates (extern ev f).
Proof.
  intros w. unfold extern. destruct (f (host w)) as [r s]. cbn [fst snd].
  by apply propagates_call.
Qed.

Lemma propagates_getenv key : propagates (getenv key : M H Value).
Proof. intros w. by apply (propagates_call _ (Returned _)). Qed.

Lemma propagates_getcwd : propagates (getcwd : M H string).
Proof. intros w. by apply (propagates_call _ (Returned _)). Qed.

Lemma propagates_open path mode : propagates (open path mode : M H string).
Proof.
  intros w. unfold open. destruct (files w !! path) as [contents|].
  - by apply (propagates_call _ (Returned _)).
  - by apply (propagates_call (EOpen path mode) (Raised (FileNotFoundError path))).
Qed.

Lemma propagates_with_open {A} path mode (body : string -> M H A) :
  (forall fp, propagates (body fp)) -> propagates (with_open path mode body).
Proof.
  intros Hb w. unfold with_open.
  destruct (propagates_open path mode w) as (evs1 & Ht1 & Hin1 & Hout1).
  destruct (open path mode w) as [[fp|e] w1]; cbn [fst snd] in *.
  - destruct (Hb fp w1) as (evs2 & Ht2 & Hin2 & Hout2).
    destruct (body fp w1) as [r w2]. cbn [fst snd trace log] in *.
    exists (evs1 ++ evs2 ++ [(EClose path, None)]).
    rewrite Ht2, Ht1, <- !app_assoc. split; [done|]. split.
    + intros ev e [Hin|[Hin|Hin]%elem_of_app]%elem_of_app.
      * by specialize (Hin1 _ _ Hin).
      * eauto.
      * by apply list_elem_of_singleton in Hin.
    + intros e He. destruct (Hout2 e He) as [ev Hev].
      exists ev. rewrite !elem_of_app. eauto.
  - exists evs1. split; [done|]. split.
    + intros ev e0 Hin. specialize (Hin1 _ _ Hin). by simplify_eq.
    + intros e0 [= <-]. by apply Hout1.
Qed.

Lemma propagates_setattr self attr v : propagates (setattr self attr v : M H unit).
Proof.
  intros w. exists []. cbn. rewrite app_nil_r.
  split; [done|]. split; [intros ?? Hin; inversion Hin | discriminate].
Qed.

Lemma propagates_load_dotenv fp : propagates (load_dotenv_stream h fp).
Proof.
  intros w. unfold load_dotenv_stream.
  destruct (load_dotenv h fp (environ w, host w)) as [r [env s]].
  cbn [fst snd]. by apply propagates_call.
Qed.

Lemma propagates_boolean (m : M H bool) : propagates m -> propagates (boolean m).
Proof.
  intros Hm. apply propagates_bind; [done | intros b; apply propagates_ret].
Qed.

#[local] Hint Resolve propagates_ret propagates_bind propagates_extern
  propagates_getenv propagates_getcwd propagates_open propagates_with_open
  propagates_setattr propagates_load_dotenv propagates_boolean : propagate.

Lemma propagates_module_body : propagates (module_body h).
Proof. unfold module_body. eauto 20 with propagate. Qed.

Lemma propagates_post_prompt self p : propagates (post_prompt h self p).
Proof. unfold post_prompt, prompt_add_command. eauto 20 with propagate. Qed.

Lemma propagates_init self : propagates (__init__ h self).
Proof.
  intros w. rewrite init_run. cbv zeta.
  destruct (template_init h (heap w !!! self, host w)) as [[[]|e] [o s]].
  - destruct (Client h _ s) as [[c|e] s']; cbn [fst snd trace];
      eexists; (split; [reflexivity|]); split.
    + intros ev e Hin. from_log Hin.
    + discriminate.
    + intros ev e' Hin. from_log Hin.
    + intros e' [= <-]. eexists. in_log.
  - cbn [fst snd trace]. eexists; (split; [reflexivity|]); split.
    + intros ev e' Hin. from_log Hin.
    + intros e' [= <-]. eexists. in_log.
Qed.

Lemma propagates_invoke self c : propagates (invoke h self c).
Proof.
  destruct c; cbn [invoke];
    try apply propagates_post_prompt;
    try (apply propagates_boolean); apply propagates_ret.
Qed.

Lemma propagates_perform self op : propagates (perform h self op).
Proof.
  destruct op; cbn [perform].
  - apply propagates_bind; [apply propagates_module_body | auto with propagate].
  - apply propagates_init.
  - apply propagates_invoke.
Qed.
End Propagation.

(** C7. Whatever the operation — the module body, the constructor or any
    method — whenever one of the calls it makes raises, the operation ends
    with that same exception, and an operation never ends with an
    exception that none of its calls raised: nothing is caught,
    translated or wrapped. *)
Theorem exceptions_propagate {H} (h : Host H) (self : loc) (op : Operation)
        (w : World H) :
  let r := perform h self op w in
  (forall ev e, (ev, Some e) ∈ new_events w r.2 -> r.1 = Raised e) /\
  (forall e, r.1 = Raised e -> exists ev, (ev, Some e) ∈ new_events w r.2).
Proof.
  cbv zeta. destruct (propagates_perform h self op w) as (evs & Ht & Hin & Hout).
  by rewrite (new_events_app _ _ _ Ht).
Qed.



Lemma exceptions_propagate_witness :
  let h := Demo.collaborators true in
  let w := (post_prompt h 1%positive Demo.prompt Demo.bare).2 in
  let r := perform h 1%positive (OpHook (PostPrompt Demo.prompt)) w in
  let e := Exc "ValueError" [VStr "notion_create_page"] in
  let ev := EAddCommand Demo.prompt "notion_create_page"
              "Create a new Notion page"
              [("title", "<title>"); ("summary", "<summary>");
               ("tags", "<list_of_tags>"); ("content", "<content>")]
              (VObj 12) in
  (ev, Some e) ∈ new_events w r.2 /\ r.1 = Raised e.
Proof.
  assert (Hin : (EAddCommand Demo.prompt "notion_create_page"
                   "Create a new Notion page"
                   [("title", "<title>"); ("summary", "<summary>");
                    ("tags", "<list_of_tags>"); ("content", "<content>")]
                   (VObj 12),
                 Some (Exc "ValueError" [VStr "notion_create_page"]))
                ∈ new_events
                    (post_prompt (Demo.collaborators true) 1%positive
                                 Demo.prompt Demo.bare).2
                    (perform (Demo.collaborators true) 1%positive
                       (OpHook (PostPrompt Demo.prompt))
                       (post_prompt (Demo.collaborators true) 1%positive
                                    Demo.prompt Demo.bare).2).2)
    by (apply (list_elem_of_lookup_2 _ 1); reflexivity).
  split; [exact Hin |].
  exact (proj1 (exceptions_propagate (Demo.collaborators true) 1%positive
                  (OpHook (PostPrompt Demo.prompt))
                  (post_prompt (Demo.collaborators true) 1%positive
                               Demo.prompt Demo.bare).2)
               _ _ Hin).
Defined.



(** C5, as stated, does not hold: [can_handle_user_input] answers [True]
    for no argument and in no state. *)
Lemma can_handle_user_input_never_true :
  ~ exists (H : Type) (self : loc) (x : Value) (w w' : World H),
      can_handle_user_input self x w = (Returned true, w').
Proof. intros (H & self & x & w & w' & Heq). discriminate Heq. Qed.

(** C5, amended. [can_handle_user_input] answers [False] on every input,
    as does every capability predicate other than
    [can_handle_post_prompt]; [user_input] stands apart from the other
    stub hooks only in its handler, which hands its argument back instead
    of returning [None]. *)
Theorem can_handle_user_input_false {H} (h : Host H) (self : loc)
        (x : Value) (w : World H) :
  can_handle_user_input self x w = (Returned false, w) /\
  user_input self x w = (Returned x, w) /\
  (forall c, is_predicate c = true -> hook_of c <> HPostPrompt ->
             invoke h self c w = (Returned (VBool false), w)).
Proof.
  split; [reflexivity |]. split; [reflexivity |].
  intros c Hc Hp. destruct c; try discriminate Hc; try reflexivity.
  by destruct Hp.
Qed.

Lemma can_handle_user_input_false_witness :
  let c := CanHandleUserInput (VStr "hello") in
  (is_predicate c = true /\ hook_of c <> HPostPrompt) /\
  invoke (Demo.collaborators false) 1%positive c Demo.bare
  = (Returned (VBool false), Demo.bare).
Proof.
  split; [split; [reflexivity | discriminate] |].
  apply (proj2 (proj2 (can_handle_user_input_false (Demo.collaborators false)
                         1%positive (VStr "hello") Demo.bare))
               (CanHandleUserInput (VStr "hello")));
    [reflexivity | discriminate].
Defined.

(** * Further properties of the constructor *)

(** X1. When [__init__] returns it returns [None], and the instance
    carries the adapter's own name, version and description, whatever
    the template's constructor had written there. *)
Theorem init_overrides_template_identity {H} (h : Host H) (self : loc)
        (w : World H) (v : Value) :
  (__init__ h self w).1 = Returned v ->
  v = VNone /\
  (heap (__init__ h self w).2 !!! self) !! "_name"
  = Some (VStr "autogpt-notion") /\
  (heap (__init__ h self w).2 !!! self) !! "_version"
  = Some (VStr "0.1.0") /\
  (heap (__init__ h self w).2 !!! self) !! "_description"
  = Some (VStr "Notion API integrations using notion-sdk-py").
Proof.
  rewrite init_run. cbv zeta.
  destruct (template_init h (heap w !!! self, host w)) as [[[]|e] [o s]];
    [|discriminate].
  destruct (Client h _ s) as [[c|e] s']; [|discriminate].
  cbn [fst snd heap]. intros [= <-]. split; [done|].
  rewrite lookup_total_insert_eq. unfold configured_object.
  repeat split.
  - by rewrite !lookup_insert_ne, lookup_insert_eq by done.
  - by rewrite !lookup_insert_ne, lookup_insert_eq by done.
  - by rewrite !lookup_insert_ne, lookup_insert_eq by done.
Qed.

Lemma init_overrides_template_identity_witness :
  let r := __init__ (Faulty.collaborators Faulty.NoFault) 1%positive
                    Faulty.from_file in
  r.1 = Returned VNone /\
  (heap r.2 !!! 1%positive) !! "_name" = Some (VStr "autogpt-notion") /\
  (heap r.2 !!! 1%positive) !! "_version" = Some (VStr "0.1.0").
Proof.
  split; [reflexivity |].
  pose proof (init_overrides_template_identity
                (Faulty.collaborators Faulty.NoFault) 1%positive
                Faulty.from_file VNone eq_refl) as (_ & Hn & Hv & _).
  split; [exact Hn | exact Hv].
Defined.

(** X2. A constructor call that returns has made exactly four calls, in
    this order: the template's constructor, the read of NOTION_TOKEN,
    the read of NOTION_DATABASE_ID, and the instantiation of the client
    with the token just read. *)
Theorem init_call_order {H} (h : Host H) (self : loc) (w : World H)
        (v : Value) :
  (__init__ h self w).1 = Returned v ->
  new_events w (__init__ h self w).2
  = [(ESuperInit self, None);
     (EGetenv "NOTION_TOKEN", None);
     (EGetenv "NOTION_DATABASE_ID", None);
     (EClient (getenv_value (environ w) "NOTION_TOKEN"), None)].
Proof.
  rewrite init_run. cbv zeta.
  destruct (template_init h (heap w !!! self, host w)) as [[[]|e] [o s]];
    [|discriminate].
  destruct (Client h _ s) as [[c|e] s']; [|discriminate].
  intros _. by apply new_events_app.
Qed.

Lemma init_call_order_witness :
  let r := __init__ (Demo.collaborators false) 1%positive Demo.bare in
  r.1 = Returned VNone /\
  new_events Demo.bare r.2
  = [(ESuperInit 1%positive, None); (EGetenv "NOTION_TOKEN", None);
     (EGetenv "NOTION_DATABASE_ID", None); (EClient VNone, None)].
Proof.
  split; [reflexivity |].
  exact (init_call_order (Demo.collaborators false) 1%positive Demo.bare
                         VNone eq_refl).
Defined.

(** X3. The constructor writes to [self] only, and on [self] only the
    six attributes it names: every other object is as before, every
    other attribute is as the template's constructor left it, and the
    working directory and the files are untouched. *)
Theorem init_frame {H} (h : Host H) (self : loc) (w : World H)
        (t : Outcome unit) (o : Object) (s : H) :
  template_init h (heap w !!! self, host w) = (t, (o, s)) ->
  (forall l, l <> self -> heap (__init__ h self w).2 !! l = heap w !! l) /\
  (forall attr, attr ∉ adapter_fields ->
     (heap (__init__ h self w).2 !!! self) !! attr = o !! attr) /\
  cwd (__init__ h self w).2 = cwd w /\
  files (__init__ h self w).2 = files w.
Proof.
  intros Ht. rewrite init_run, Ht. cbv zeta.
  assert (Hattr : forall c attr, attr ∉ adapter_fields ->
            (<["notion" := c]> (configured_object (environ w) o)) !! attr
            = o !! attr /\
            configured_object (environ w) o !! attr = o !! attr).
  { intros c attr Hn. unfold configured_object, adapter_fields in *.
    rewrite !not_elem_of_cons in Hn.
    destruct Hn as (? & ? & ? & ? & ? & ? & _).
    by rewrite !lookup_insert_ne by done. }
  destruct t as [[]|e].
  - destruct (Client h _ s) as [[c|e] s']; cbn [fst snd heap cwd files];
      (split; [intros l Hl; by rewrite lookup_insert_ne |]);
      (split; [|done]); intros attr Hn; rewrite lookup_total_insert_eq.
    + exact (proj1 (Hattr c attr Hn)).
    + exact (proj2 (Hattr VNone attr Hn)).
  - cbn [fst snd heap cwd files].
    split; [intros l Hl; by rewrite lookup_insert_ne |].
    split; [|done]. intros attr _. by rewrite lookup_total_insert_eq.
Qed.

Lemma init_frame_witness :
  let r := __init__ (Faulty.collaborators Faulty.NoFault) 1%positive
                    Faulty.from_file in
  heap r.2 !! 2%positive = Some {["kept" := VInt 5]} /\
  (heap r.2 !!! 1%positive) !! "extra" = Some (VInt 1).
Proof.
  pose proof (init_frame (Faulty.collaborators Faulty.NoFault) 1%positive
                Faulty.from_file _ _ _ eq_refl) as (Hl & Ha & _).
  split.
  - exact (Hl 2%positive ltac:(discriminate)).
  - apply (Ha "extra"). unfold adapter_fields.
    rewrite !not_elem_of_cons. repeat split; try discriminate.
    apply not_elem_of_nil.
Defined.

(** X4. When the client cannot be instantiated, the constructor ends
    with the client's exception after both configuration reads: the
    token and the database identifier are already stored on the
    instance, and [notion] is not assigned. *)
Theorem init_client_failure {H} (h : Host H) (self : loc) (w : World H)
        (o : Object) (s s' : H) (e : Exn) :
  template_init h (heap w !!! self, host w) = (Returned tt, (o, s)) ->
  Client h (getenv_value (environ w) "NOTION_TOKEN") s = (Raised e, s') ->
  let r := __init__ h self w in
  r.1 = Raised e /\
  getenv_reads (new_events w r.2) = ["NOTION_TOKEN"; "NOTION_DATABASE_ID"] /\
  (heap r.2 !!! self) !! "notion_token"
  = Some (getenv_value (environ w) "NOTION_TOKEN") /\
  (heap r.2 !!! self) !! "database_id"
  = Some (getenv_value (environ w) "NOTION_DATABASE_ID") /\
  (heap r.2 !!! self) !! "notion" = o !! "notion" /\
  host r.2 = s'.
Proof.
  intros Ht Hc. cbv zeta. rewrite init_run, Ht. cbv zeta. rewrite Hc.
  cbn [fst snd heap host]. erewrite new_events_app by reflexivity.
  rewrite lookup_total_insert_eq. unfold configured_object.
  repeat split.
  - by rewrite !lookup_insert_ne, lookup_insert_eq by done.
  - by rewrite lookup_insert_eq.
  - by rewrite !lookup_insert_ne by done.
Qed.

Lemma init_client_failure_witness :
  let r := __init__ (Faulty.collaborators Faulty.ClientFails) 1%positive
                    Demo.configured in
  r.1 = Raised (Exc "ConnectError" [VStr "secret_abc"]) /\
  (heap r.2 !!! 1%positive) !! "database_id" = Some (VStr "db42") /\
  (heap r.2 !!! 1%positive) !! "notion" = None.
Proof.
  pose proof (init_client_failure (Faulty.collaborators Faulty.ClientFails)
                1%positive Demo.configured _ _ _ _ eq_refl eq_refl)
    as (Hr & _ & _ & Hdb & Hn & _).
  split; [exact Hr |]. split; [exact Hdb | exact Hn].
Defined.

(** X5. When the template's constructor raises, the adapter's
    constructor ends with that exception at once: it has read no
    configuration, instantiated no client and assigned no attribute. *)
Theorem init_template_failure {H} (h : Host H) (self : loc) (w : World H)
        (o : Object) (s : H) (e : Exn) :
  template_init h (heap w !!! self, host w) = (Raised e, (o, s)) ->
  let r := __init__ h self w in
  r.1 = Raised e /\
  new_events w r.2 = [(ESuperInit self, Some e)] /\
  heap r.2 !!! self = o /\
  host r.2 = s /\ environ r.2 = environ w.
Proof.
  intros Ht. cbv zeta. rewrite init_run, Ht. cbv zeta.
  cbn [fst snd heap host environ]. erewrite new_events_app by reflexivity.
  by rewrite lookup_total_insert_eq.
Qed.

Lemma init_template_failure_witness :
  let r := __init__ (Faulty.collaborators Faulty.TemplateFails) 1%positive
                    Demo.configured in
  r.1 = Raised (Exc "TypeError" []) /\
  new_events Demo.configured r.2
  = [(ESuperInit 1%positive, Some (Exc "TypeError" []))] /\
  heap r.2 !!! 1%positive = (∅ : Object).
Proof.
  pose proof (init_template_failure
                (Faulty.collaborators Faulty.TemplateFails)
                1%positive Demo.configured _ _ _ eq_refl)
    as (Hr & Hev & Ho & _).
  split; [exact Hr |]. split; [exact Hev | exact Ho].
Defined.



(** * Further properties of the module body *)

(** The module body, call by call. *)
Lemma module_run {H} (h : Host H) (w : World H) :
  module_body h w =
  let path := path_join (cwd w) ".env" in
  let world := fun s env evs =>
    mkWorld env (cwd w) (files w) (heap w) s (trace w ++ evs) in
  match import_module h "auto_gpt_plugin_template" (host w) with
  | (Raised e, s1) =>
      (Raised e,
       world s1 (environ w) [(EImport "auto_gpt_plugin_template", Some e)])
  | (Returned _, s1) =>
  match import_module h "dotenv" s1 with
  | (Raised e, s2) =>
      (Raised e,
       world s2 (environ w) [(EImport "auto_gpt_plugin_template", None);
                             (EImport "dotenv", Some e)])
  | (Returned _, s2) =>
  match import_module h "notion_client" s2 with
  | (Raised e, s3) =>
      (Raised e,
       world s3 (environ w) [(EImport "auto_gpt_plugin_template", None);
                             (EImport "dotenv", None);
                             (EImport "notion_client", Some e)])
  | (Returned _, s3) =>
      let pre := [(EImport "auto_gpt_plugin_template", None);
                  (EImport "dotenv", None);
                  (EImport "notion_client", None);
                  (EGetcwd, None)] in
      match files w !! path with
      | None =>
          (Raised (FileNotFoundError path),
           world s3 (environ w)
                 (pre ++ [(EOpen path "r", Some (FileNotFoundError path))]))
      | Some c =>
          let '(r, (env', s)) := load_dotenv h c (environ w, s3) in
          (match r with Returned _ => Returned tt | Raised e => Raised e end,
           world s env' (pre ++ [(EOpen path "r", None);
                                 (ELoadDotenv c, raised r);
                                 (EClose path, None)]))
      end
  end end end.
Proof.
  destruct w as [env d fs hp s0 tr].
  lazy beta iota zeta delta
    [module_body extern getcwd with_open open
     load_dotenv_stream mbind M_bind mret M_ret
     log set_heap set_host set_environ environ cwd files heap host trace
     raised fst snd].
  destruct (import_module h "auto_gpt_plugin_template" s0) as [[[]|e1] s1];
    [|reflexivity].
  destruct (import_module h "dotenv" s1) as [[[]|e2] s2];
    [|by rewrite <- !app_assoc].
  destruct (import_module h "notion_client" s2) as [[[]|e3] s3];
    [|by rewrite <- !app_assoc].
  destruct (fs !! path_join d ".env") as [c|]; [|by rewrite <- !app_assoc].
  destruct (load_dotenv h c (env, s3)) as [[v|e] [env' s]];
    by rewrite <- !app_assoc.
Qed.

(** What is left of the module body once its outcomes are named. *)
Ltac module_cases h w :=
  rewrite ?module_run; cbv zeta;
  destruct (import_module h "auto_gpt_plugin_template" (host w))
    as [[[]|?e] ?s];
  [ destruct (import_module h "dotenv" _) as [[[]|?e] ?s];
    [ destruct (import_module h "notion_client" _) as [[[]|?e] ?s];
      [ destruct (files w !! path_join (cwd w) ".env") as [?c|] eqn:?Hfile;
        [ destruct (load_dotenv h _ (environ w, _)) as [[?v|?e] [?env ?s]]
        | ]
      | ]
    | ]
  | ];
  cbn [fst snd environ cwd files heap host trace raised];
  repeat (erewrite new_events_app by reflexivity);
  cbn [app].

(** X7. The [.env] file never stays open: if it was opened, closing it
    is the last thing the module body does, also when [load_dotenv]
    raises; if opening it failed, nothing is closed and [load_dotenv]
    is not called. *)
Theorem module_body_closes_file {H} (h : Host H) (w : World H) :
  let evs := new_events w (module_body h w).2 in
  (forall p m, (EOpen p m, None) ∈ evs -> last evs = Some (EClose p, None)) /\
  (forall p m e, (EOpen p m, Some e) ∈ evs ->
     forall x, x ∈ evs -> forall q c, x.1 <> EClose q /\ x.1 <> ELoadDotenv c).
Proof.
  module_cases h w; (split; [intros p m Hin | intros p m e' Hin x Hx q c']);
    try (exfalso; from_log Hin).
  - apply elem_of_cons in Hin as [Hin|Hin]; [discriminate Hin|].
    do 3 (apply elem_of_cons in Hin as [Hin|Hin]; [discriminate Hin|]).
    apply elem_of_cons in Hin as [Hin|Hin]; [|exfalso; from_log Hin].
    by simplify_eq.
  - apply elem_of_cons in Hin as [Hin|Hin]; [discriminate Hin|].
    do 3 (apply elem_of_cons in Hin as [Hin|Hin]; [discriminate Hin|]).
    apply elem_of_cons in Hin as [Hin|Hin]; [|exfalso; from_log Hin].
    by simplify_eq.
  - repeat (apply elem_of_cons in Hx as [->|Hx]; [done|]).
    by apply elem_of_nil in Hx.
Qed.

Lemma module_body_closes_file_witness :
  let r := module_body (Faulty.collaborators Faulty.DotenvFails)
                       Faulty.from_file in
  r.1 = Raised (Exc "UnicodeDecodeError" []) /\
  last (new_events Faulty.from_file r.2)
  = Some (EClose "/srv/agent/.env", None).
Proof.
  split; [reflexivity |].
  apply (proj1 (module_body_closes_file
                  (Faulty.collaborators Faulty.DotenvFails) Faulty.from_file)
               "/srv/agent/.env" "r").
  apply (list_elem_of_lookup_2 _ 4). reflexivity.
Defined.

(** A module body that returns has read the file and loaded it. *)
Lemma module_body_returned {H} (h : Host H) (w w1 : World H) (u : unit) :
  module_body h w = (Returned u, w1) ->
  exists c v s3 s,
    files w !! path_join (cwd w) ".env" = Some c /\
    load_dotenv h c (environ w, s3) = (Returned v, (environ w1, s)) /\
    trace w1
    = trace w ++
      [(EImport "auto_gpt_plugin_template", None);
       (EImport "dotenv", None);
       (EImport "notion_client", None);
       (EGetcwd, None);
       (EOpen (path_join (cwd w) ".env") "r", None);
       (ELoadDotenv c, None);
       (EClose (path_join (cwd w) ".env"), None)] /\
    heap w1 = heap w /\ cwd w1 = cwd w /\ files w1 = files w.
Proof.
  rewrite module_run. cbv zeta.
  destruct (import_module h "auto_gpt_plugin_template" (host w))
    as [[[]|e1] s1]; [|discriminate].
  destruct (import_module h "dotenv" s1) as [[[]|e2] s2]; [|discriminate].
  destruct (import_module h "notion_client" s2) as [[[]|e3] s3];
    [|discriminate].
  destruct (files w !! path_join (cwd w) ".env") as [c|]; [|discriminate].
  destruct (load_dotenv h c (environ w, s3)) as [[v|e] [env' s]] eqn:Hl;
    [|discriminate].
  intros [= _ <-]. exists c, v, s3, s.
  cbn [environ heap cwd files trace]. split; [done|]. split; [done|].
  done.
Qed.

(** X8. The module body returns only after the full sequence: the three
    dependency imports in source order, the lookup of the working
    directory, the opening of [.env] there for reading, [load_dotenv]
    on the contents of that very file, and the closing of the file; it
    leaves the plugin objects, the working directory and the files as
    they were. *)
Theorem module_body_success {H} (h : Host H) (w : World H) (u : unit) :
  (module_body h w).1 = Returned u ->
  let w1 := (module_body h w).2 in
  let path := path_join (cwd w) ".env" in
  exists c,
    files w !! path = Some c /\
    new_events w w1
    = [(EImport "auto_gpt_plugin_template", None);
       (EImport "dotenv", None);
       (EImport "notion_client", None);
       (EGetcwd, None);
       (EOpen path "r", None);
       (ELoadDotenv c, None);
       (EClose path, None)] /\
    heap w1 = heap w /\ cwd w1 = cwd w /\ files w1 = files w.
Proof.
  intros Hr. cbv zeta.
  destruct (module_body h w) as [r w1] eqn:Hm. cbn [fst snd] in *. subst r.
  destruct (module_body_returned h w w1 u Hm)
    as (c & v & s3 & s & Hf & _ & Hev & Hrest).
  exists c. split; [done|]. split; [by apply new_events_app | done].
Qed.

Lemma module_body_success_witness :
  let r := module_body (Demo.collaborators false) Demo.configured in
  r.1 = Returned tt /\
  exists c, files Demo.configured !! "/srv/agent/.env" = Some c /\
            (ELoadDotenv c, None) ∈ new_events Demo.configured r.2.
Proof.
  split; [reflexivity |].
  destruct (module_body_success (Demo.collaborators false) Demo.configured
              tt eq_refl) as (c & Hf & Hev & _).
  exists c. split; [exact Hf |].
  rewrite Hev. in_log.
Defined.

(** X9. The configuration a freshly imported module constructs with is
    the one [load_dotenv] produced from the [.env] file: when import and
    construction both succeed, the token and the database identifier
    stored on the instance are read from the environment [load_dotenv]
    returned, not from the one the process started with. *)
Theorem env_file_feeds_constructor {H} (h : Host H) (self : loc)
        (w : World H) (v : Value) :
  (import_then_construct h self w).1 = Returned v ->
  let r := import_then_construct h self w in
  let env' := environ (module_body h w).2 in
  (exists c u s3 s,
     files w !! path_join (cwd w) ".env" = Some c /\
     load_dotenv h c (environ w, s3) = (Returned u, (env', s))) /\
  (heap r.2 !!! self) !! "notion_token"
  = Some (getenv_value env' "NOTION_TOKEN") /\
  (heap r.2 !!! self) !! "database_id"
  = Some (getenv_value env' "NOTION_DATABASE_ID") /\
  clients (new_events w r.2) = [getenv_value env' "NOTION_TOKEN"].
Proof.
  cbv zeta. unfold import_then_construct, mbind, M_bind.
  destruct (module_body h w) as [[[]|e] w1] eqn:Hm; [|discriminate].
  destruct (module_body_returned h w w1 tt Hm)
    as (c & u & s3 & s & Hf & Hl & Hev & _).
  intros Hr. cbn [fst snd]. split; [by exists c, u, s3, s |].
  revert Hr. rewrite init_run. cbv zeta.
  destruct (template_init h (heap w1 !!! self, host w1)) as [[[]|e] [o s']];
    [|discriminate].
  destruct (Client h _ s') as [[cl|e] s'']; [|discriminate].
  intros _. cbn [fst snd heap].
  rewrite lookup_total_insert_eq. unfold configured_object.
  split; [by rewrite !lookup_insert_ne, lookup_insert_eq by done|].
  split; [by rewrite lookup_insert_ne, lookup_insert_eq by done|].
  unfold new_events. cbn [trace].
  rewrite Hev, <- !app_assoc, drop_app_length. reflexivity.
Qed.

Lemma env_file_feeds_constructor_witness :
  environ Faulty.from_file !! "NOTION_TOKEN" = None /\
  (heap (import_then_construct (Faulty.collaborators Faulty.NoFault)
                               1%positive Faulty.from_file).2
     !!! 1%positive) !! "notion_token"
  = Some (VStr "secret_from_file").
Proof.
  split; [reflexivity |].
  exact (proj1 (proj2 (env_file_feeds_constructor
                         (Faulty.collaborators Faulty.NoFault)
                         1%positive Faulty.from_file VNone eq_refl))).
Defined.

(** X10. A dependency that cannot be imported ends the module body with
    its exception before anything else happens: the failing import is
    one of the three dependencies, the working directory is not looked
    up, [.env] is not opened, and the environment is unchanged. *)
Theorem module_body_dependency_failure {H} (h : Host H) (w : World H)
        (m : string) (e : Exn) :
  let r := module_body h w in
  (EImport m, Some e) ∈ new_events w r.2 ->
  r.1 = Raised e /\ m ∈ dependencies /\ environ r.2 = environ w /\
  Forall (fun x => ~ file_call x) (new_events w r.2).
Proof.
  module_cases h w; intros Hin; try (exfalso; from_log Hin);
    repeat (apply elem_of_cons in Hin as [Hin|Hin]; [try discriminate Hin|]);
    try (by apply elem_of_nil in Hin);
    simplify_eq; (split; [done|]); (split; [unfold dependencies; in_log|]);
    (split; [done|]);
    repeat first [apply Forall_nil_2 | apply Forall_cons_2; [by intros []|]].
Qed.

Lemma module_body_dependency_failure_witness :
  let h := Faulty.collaborators (Faulty.DependencyMissing "dotenv") in
  let r := module_body h Demo.configured in
  let e := Exc "ModuleNotFoundError" [VStr "dotenv"] in
  (EImport "dotenv", Some e) ∈ new_events Demo.configured r.2 /\
  r.1 = Raised e /\ length (new_events Demo.configured r.2) = 2.
Proof.
  assert (Hin : (EImport "dotenv",
                 Some (Exc "ModuleNotFoundError" [VStr "dotenv"]))
                ∈ new_events Demo.configured
                    (module_body
                       (Faulty.collaborators
                          (Faulty.DependencyMissing "dotenv"))
                       Demo.configured).2)
    by (apply (list_elem_of_lookup_2 _ 1); reflexivity).
  split; [exact Hin |]. split; [|reflexivity].
  exact (proj1 (module_body_dependency_failure
                  (Faulty.collaborators (Faulty.DependencyMissing "dotenv"))
                  Demo.configured _ _ Hin)).
Defined.

(** X11. Loading the module never touches a plugin object, the working
    directory or the files, and it changes the process environment only
    through [load_dotenv]: a load that did not reach [load_dotenv]
    leaves the environment as it was. *)
Theorem module_body_frame {H} (h : Host H) (w : World H) :
  let r := module_body h w in
  heap r.2 = heap w /\ cwd r.2 = cwd w /\ files r.2 = files w /\
  ((forall c o, (ELoadDotenv c, o) ∉ new_events w r.2) ->
   environ r.2 = environ w).
Proof.
  module_cases h w; do 3 (split; [reflexivity|]); intros Hno;
    try reflexivity; exfalso; eapply Hno; in_log.
Qed.

Lemma module_body_frame_witness :
  let r := module_body (Demo.collaborators false) Demo.bare in
  environ r.2 = environ Demo.bare.
Proof.
  apply (proj2 (proj2 (proj2 (module_body_frame (Demo.collaborators false)
                                Demo.bare)))).
  intros c o Hin. from_log Hin.
Defined.

(** * Further properties of [post_prompt] *)

Section Registration.
Context {H : Type} (h : Host H).
Implicit Types (w : World H) (self : loc) (p : Value).

(** The calls of [register_all]: every descriptor in turn, up to and
    including the first whose registration raises. *)
Lemma register_all_shape p cmds (s : H) :
  match (register_all h p cmds s).1.1 with
  | Returned _ =>
      (register_all h p cmds s).2 = (fun c => (call_of p c, None)) <$> cmds
  | Raised e =>
      exists k c, cmds !! k = Some c /\
        (register_all h p cmds s).2
        = ((fun c => (call_of p c, None)) <$> take k cmds)
            ++ [(call_of p c, Some e)]
  end.
Proof.
  revert s. induction cmds as [|[[[name d] args] f] rest IH]; intros s; simpl.
  - done.
  - destruct (add_command h p name d args f s) as [[v|e] s'].
    + specialize (IH s').
      destruct (register_all h p rest s') as [[[u|e] s''] evs]; simpl in *.
      * by rewrite IH.
      * destruct IH as (k & c & Hk & ->). by exists (S k), c.
    + simpl. by exists 0, (name, d, args, f).
Qed.

(** The three ways a call of [post_prompt] can go. *)
Lemma post_prompt_events self p w :
  let r := post_prompt h self p w in
  let evs := new_events w r.2 in
  (exists e s, import_notion h (host w) = (Raised e, s) /\
     r.1 = Raised e /\ host r.2 = s /\
     evs = [(import_from_notion, Some e)]) \/
  (exists fns s, import_notion h (host w) = (Returned fns, s) /\
     ((r.1 = Returned p /\
       evs = (import_from_notion, None)
             :: ((fun c => (call_of p c, None)) <$> notion_commands fns)) \/
      (exists e k c, r.1 = Raised e /\ notion_commands fns !! k = Some c /\
         evs = (import_from_notion, None)
               :: ((fun c => (call_of p c, None))
                     <$> take k (notion_commands fns))
               ++ [(call_of p c, Some e)]))).
Proof.
  cbv zeta. rewrite post_prompt_run. unfold import_then_register.
  destruct (import_notion h (host w)) as [[fns|e] s1].
  - right. exists fns, s1. split; [done|].
    pose proof (register_all_shape p (notion_commands fns) s1) as Hs.
    destruct (register_all h p (notion_commands fns) s1) as [[[u|e] s2] evs];
      cbn [fst snd] in *; erewrite new_events_app by reflexivity.
    + left. by rewrite Hs.
    + right. destruct Hs as (k & c & Hk & ->). by exists e, k, c.
  - left. exists e, s1. cbn [fst snd host].
    erewrite new_events_app by reflexivity. done.
Qed.
End Registration.

(** Every way a call of [post_prompt] can go, with its log written out. *)
Ltac post_prompt_cases h self p w :=
  let fns := fresh "fns" in
  let k := fresh "k" in
  let Hk := fresh "Hk" in
  destruct (post_prompt_events h self p w)
    as [(?e & ?s & ?Himp & ?Hr & ?Hs & ->)
       |(fns & ?s & ?Himp & [(?Hr & ->)|(?e & k & ?c & ?Hr & Hk & ->)])];
  [ | | do 5 (try (destruct k as [|k]; [injection Hk as <-|]));
        [ .. | by destruct fns] ].

(** X12. Each command is bound to the handler of its own name: when
    [post_prompt] returns, [notion_create_page] was registered with the
    imported [create_page], [notion_get_all_pages] with [get_all_pages],
    [notion_append_page] with [append_page], [notion_retrieve_page] with
    [retrieve_page] and [notion_update_page_properties] with
    [update_page_properties]. *)
Theorem post_prompt_binds_handlers {H} (h : Host H) (self : loc)
        (p : Value) (w : World H) (fns : NotionFns) (s : H) (v : Value) :
  import_notion h (host w) = (Returned fns, s) ->
  (post_prompt h self p w).1 = Returned v ->
  bindings (new_events w (post_prompt h self p w).2)
  = [("notion_create_page", create_page fns);
     ("notion_get_all_pages", get_all_pages fns);
     ("notion_append_page", append_page fns);
     ("notion_retrieve_page", retrieve_page fns);
     ("notion_update_page_properties", update_page_properties fns)].
Proof.
  intros Hi Hv. post_prompt_cases h self p w; try congruence.
  assert (fns0 = fns) as -> by congruence. reflexivity.
Qed.

Lemma post_prompt_binds_handlers_witness :
  bindings (new_events Demo.bare
              (post_prompt (Demo.collaborators false) 1%positive Demo.prompt
                           Demo.bare).2)
  = [("notion_create_page", VObj 12); ("notion_get_all_pages", VObj 13);
     ("notion_append_page", VObj 11); ("notion_retrieve_page", VObj 14);
     ("notion_update_page_properties", VObj 15)].
Proof.
  exact (post_prompt_binds_handlers (Demo.collaborators false) 1%positive
           Demo.prompt Demo.bare Demo.fns [] Demo.prompt eq_refl eq_refl).
Defined.

(** X13. When the handlers cannot be imported, [post_prompt] ends with
    the import's exception and the prompt is not touched: the import is
    the only call made, and no command is registered. *)
Theorem post_prompt_import_failure {H} (h : Host H) (self : loc)
        (p : Value) (w : World H) (e : Exn) (s : H) :
  import_notion h (host w) = (Raised e, s) ->
  let r := post_prompt h self p w in
  r.1 = Raised e /\
  new_events w r.2 = [(import_from_notion, Some e)] /\
  registrations (new_events w r.2) = [] /\
  host r.2 = s.
Proof.
  intros Hi. cbv zeta. post_prompt_cases h self p w; try congruence.
  assert (e0 = e /\ s0 = s) as [-> ->] by (split; congruence). done.
Qed.

Lemma post_prompt_import_failure_witness :
  let r := post_prompt (Faulty.collaborators Faulty.HandlersMissing)
                       1%positive Demo.prompt Demo.bare in
  r.1 = Raised (Exc "ImportError" [VStr ".notion"]) /\
  registrations (new_events Demo.bare r.2) = [].
Proof.
  pose proof (post_prompt_import_failure
                (Faulty.collaborators Faulty.HandlersMissing) 1%positive
                Demo.prompt Demo.bare _ _ eq_refl) as (Hr & _ & Hn & _).
  split; [exact Hr | exact Hn].
Defined.

(** X14. A registration that raises stops [post_prompt] where it is and
    nothing is undone: the commands before it in the table were
    registered without error, the failing one is the last call made,
    and [post_prompt] ends with its exception. *)
Theorem post_prompt_partial_registration {H} (h : Host H) (self : loc)
        (p : Value) (w : World H) (fns : NotionFns) (s : H) (e : Exn) :
  import_notion h (host w) = (Returned fns, s) ->
  (post_prompt h self p w).1 = Raised e ->
  let evs := new_events w (post_prompt h self p w).2 in
  let n := length (registrations evs) in
  1 <= n <= 5 /\
  registrations evs = take n (expected_registrations p) /\
  evs.*2 = replicate n None ++ [Some e].
Proof.
  intros Hi Hr. cbv zeta. post_prompt_cases h self p w; try congruence;
    assert (e0 = e) as -> by congruence;
    (split; [cbn; lia |]); split; reflexivity.
Qed.

Lemma post_prompt_partial_registration_witness :
  let r := post_prompt (Faulty.collaborators (Faulty.RegistryFull 2))
                       1%positive Demo.prompt Demo.bare in
  r.1 = Raised (Exc "OverflowError" [VStr "notion_append_page"]) /\
  registrations (new_events Demo.bare r.2)
  = take 3 (expected_registrations Demo.prompt) /\
  host r.2 = [(Demo.prompt, "notion_create_page");
              (Demo.prompt, "notion_get_all_pages")].
Proof.
  split; [reflexivity |]. split; [|reflexivity].
  exact (proj1 (proj2 (post_prompt_partial_registration
                         (Faulty.collaborators (Faulty.RegistryFull 2))
                         1%positive Demo.prompt Demo.bare Demo.fns [] _
                         eq_refl eq_refl))).
Defined.

(** The registrations of a complete run of [import_then_register]. *)
Lemma import_then_register_complete {H} (h : Host H) (p : Value) (s : H)
      (u : unit) :
  (import_then_register h p s).1.1 = Returned u ->
  registrations (import_then_register h p s).2 = expected_registrations p.
Proof.
  unfold import_then_register.
  destruct (import_notion h s) as [[fns|e] s1]; [|discriminate].
  pose proof (register_all_registrations h p (notion_commands fns) s1)
    as [_ Heq].
  destruct (register_all h p (notion_commands fns) s1) as [[r s2] evs].
  cbn [fst snd] in *. intros Hr. exact (Heq u Hr).
Qed.

(** X15. [post_prompt] keeps no record of what it registered: called a
    second time it imports and registers all five commands again, so
    after two calls that return the commands have been registered
    twice, ten registrations in all. *)
Theorem post_prompt_twice_registers_twice {H} (h : Host H) (self : loc)
        (p p' : Value) (w : World H) (v v' : Value) :
  let r1 := post_prompt h self p w in
  let r2 := post_prompt h self p' r1.2 in
  r1.1 = Returned v -> r2.1 = Returned v' ->
  registrations (new_events w r2.2)
  = expected_registrations p ++ expected_registrations p' /\
  length (registrations (new_events w r2.2)) = 10.
Proof.
  cbv zeta. rewrite (post_prompt_run h self p w).
  pose proof (import_then_register_complete h p (host w)) as H1.
  destruct (import_then_register h p (host w)) as [[[u1|e1] s1] evs1];
    [|discriminate].
  cbn [fst snd] in *. rewrite post_prompt_run. cbn [host trace].
  pose proof (import_then_register_complete h p' s1) as H2.
  destruct (import_then_register h p' s1) as [[[u2|e2] s2] evs2];
    [|discriminate].
  cbn [fst snd] in *. intros _ _.
  erewrite new_events_app by (cbn [trace]; by rewrite <- app_assoc).
  unfold registrations in *. rewrite omap_app.
  rewrite (H1 u1 eq_refl), (H2 u2 eq_refl). done.
Qed.

Lemma post_prompt_twice_registers_twice_witness :
  let h := Demo.collaborators false in
  let r1 := post_prompt h 1%positive Demo.prompt Demo.bare in
  let r2 := post_prompt h 1%positive Demo.prompt r1.2 in
  r2.1 = Returned Demo.prompt /\
  length (registrations (new_events Demo.bare r2.2)) = 10 /\
  length (host r2.2) = 10.
Proof.
  split; [reflexivity |]. split; [|reflexivity].
  exact (proj2 (post_prompt_twice_registers_twice (Demo.collaborators false)
                  1%positive Demo.prompt Demo.prompt Demo.bare
                  Demo.prompt Demo.prompt eq_refl eq_refl)).
Defined.

(** X16. No hook looks at the instance it is called on: the outcome of
    an invocation, the state it leaves the collaborators in and the
    calls it makes are the same on any instance and in any two worlds
    that agree on the collaborators' state, whatever [self] holds and
    whatever the environment and the files are. *)
Theorem hooks_ignore_instance {H} (h : Host H) (self self' : loc)
        (c : Invocation) (w w' : World H) :
  host w = host w' ->
  (invoke h self c w).1 = (invoke h self' c w').1 /\
  host (invoke h self c w).2 = host (invoke h self' c w').2 /\
  new_events w (invoke h self c w).2 = new_events w' (invoke h self' c w').2.
Proof.
  intros Hh.
  destruct c;
    try (cbn; rewrite !new_events_refl; by repeat split).
  cbn [invoke]. rewrite !post_prompt_run, Hh.
  destruct (import_then_register h prompt (host w')) as [[r s] evs].
  cbn [fst snd host]. by rewrite !(new_events_app _ _ evs) by done.
Qed.

Lemma hooks_ignore_instance_witness :
  let h := Demo.collaborators false in
  (invoke h 1%positive (PostPrompt Demo.prompt) Demo.bare).1
  = (invoke h 2%positive (PostPrompt Demo.prompt) Demo.configured).1.
Proof.
  exact (proj1 (hooks_ignore_instance (Demo.collaborators false)
                  1%positive 2%positive (PostPrompt Demo.prompt)
                  Demo.bare Demo.configured eq_refl)).
Defined.

(** X17. Within one call of [post_prompt] no command name is registered
    twice and no argument template names an argument twice, however far
    the call gets. *)
Theorem post_prompt_names_distinct {H} (h : Host H) (self : loc)
        (p : Value) (w : World H) :
  let regs := registrations (new_events w (post_prompt h self p w).2) in
  NoDup (regs.*1).*2 /\ Forall (fun x => NoDup x.2) regs.
Proof.
  cbv zeta. post_prompt_cases h self p w; split; compute_done.
Qed.

(** X18. [post_prompt] calls nothing but the handler import and
    [add_command] on the prompt it was given: the import comes first,
    on every call, and every later call is a registration on [p]; it
    reads no configuration, opens no file and creates no client. *)
Theorem post_prompt_calls_only_register {H} (h : Host H) (self : loc)
        (p : Value) (w : World H) :
  exists o rest,
    new_events w (post_prompt h self p w).2 = (import_from_notion, o) :: rest /\
    Forall (registration_on p) rest.
Proof.
  post_prompt_cases h self p w; cbn; eexists _, _;
    (split; [reflexivity |]);
    repeat first [apply Forall_nil_2 | apply Forall_cons_2; [reflexivity|]].
Qed.
